(** * dags/dbt_dag.py: the dbt workflow definition

    The file declares one Airflow DAG through the [@dag] decorator and, in
    its body, one Cosmos [DbtTaskGroup].  Everything it does happens while
    the host runtime imports the module, so the development below embeds
    the module as a computation that is run once per load, in a small
    state-and-exception monad, against an abstract description of the
    host runtime and the plugin (which are not part of the repository). *)

From stdpp Require Import base numbers strings list gmap.

Local Open Scope string_scope.

(** ** Values built by the definition file *)

(** [datetime.datetime]: the file only calls [datetime(year, month, day)]. *)
Record datetime := Datetime {
  year : Z; month : Z; day : Z;
  hour : Z; minute : Z; second : Z
}.

(** [datetime(y, m, d)]: the time-of-day arguments keep their default, 0. *)
Definition datetime_ymd (y m d : Z) : datetime := Datetime y m d 0 0 0.

(** A member of an enumeration class, as an attribute reference names it:
    [ExecutionMode.LOCAL] is the member [LOCAL] of class [ExecutionMode]. *)
Record EnumMember := Member { enum_class : string; member_name : string }.

(** [ProjectConfig(dbt_project_path=...)] *)
Record ProjectConfig := { dbt_project_path : string }.

(** [ProfileConfig(profiles_yml_filepath=..., profile_name=..., target_name=...)] *)
Record ProfileConfig := {
  profiles_yml_filepath : string;
  profile_name : string;
  target_name : string
}.

(** [ExecutionConfig(execution_mode=...)] *)
Record ExecutionConfig := { execution_mode : EnumMember }.

(** [RenderConfig(load_method=...)] *)
Record RenderConfig := { load_method : EnumMember }.

(** [DbtTaskGroup(group_id=..., project_config=..., profile_config=...,
    execution_config=..., render_config=...)]: the five keyword arguments
    the file passes, kept as passed. *)
Record DbtTaskGroup := {
  group_id : string;
  project_config : ProjectConfig;
  profile_config : ProfileConfig;
  execution_config : ExecutionConfig;
  render_config : RenderConfig
}.

(** What a DAG body can declare: task groups and single tasks. *)
Inductive Node :=
| TaskGroupNode (g : DbtTaskGroup)
| TaskNode (task_id : string).

(** The workflow object: the four keyword arguments of [@dag(...)], the
    nodes declared while the DAG is the active one, and the dependencies
    ([upstream >> downstream]) declared between them. *)
Record DAG := {
  dag_id : string;
  schedule : string;
  start_date : datetime;
  catchup : bool;
  nodes : list Node;
  edges : list (string * string)
}.

(** Values a Python call in this file can evaluate to. *)
Inductive PyValue :=
| PyNone
| PyTaskGroup (g : DbtTaskGroup)
| PyDag (d : DAG).

(** ** Exceptions and observable effects *)

Inductive Exn :=
| InvalidSchedule (s : string)
| PathNotFound (p : string)
| AttributeError (cls name : string)
| NoActiveDag.

(** Modelled from the spec: the effects the specification speaks of at
    load time (sections 4.1 and 8): registration in the runtime's catalog,
    an invocation of the external transformation tool, a scan of the
    project's SQL contents, a network call.  The libraries that perform
    them are not in the repository. *)
Inductive Effect :=
| RegisterDag (id : string)
| InvokeTool (argv : list string)
| ScanProject (path : string)
| NetworkCall (peer : string).

(** ** The environment of a load

    Modelled from the spec: the host runtime and the plugin are taken as
    parameters.  [valid_schedule] is the runtime's check of a schedule
    string, [path_exists] the filesystem as seen at load time,
    [enum_members] the member names each enumeration class declares, and
    [render_effects] what the plugin does, for a given load method and
    project, to discover the task graph while the group is constructed. *)
Record Env := {
  valid_schedule : string → bool;
  path_exists : string → bool;
  enum_members : string → list string;
  render_effects : EnumMember → string → list Effect
}.

(** ** The interpreter state of one module import *)

Record Interp := {
  dag_context : list DAG;     (* DAGs whose [with] block is open, innermost first *)
  autoregistered : list DAG;  (* DAGs handed to the loader, oldest first *)
  performed : list Effect     (* effects so far, oldest first *)
}.

Definition fresh_interp : Interp :=
  {| dag_context := []; autoregistered := []; performed := [] |}.

Inductive Outcome (A : Type) :=
| Ok (a : A)
| Raise (e : Exn).
Arguments Ok {A} a.
Arguments Raise {A} e.

(** A computation runs in an interpreter state and leaves one, also when
    it raises: a Python exception does not undo earlier effects. *)
Definition M (A : Type) : Type := Interp → Outcome A * Interp.

Definition M_ret {A} (a : A) : M A := λ st, (Ok a, st).

Definition M_bind {A B} (f : A → M B) (m : M A) : M B :=
  λ st, match m st with
        | (Ok a, st') => f a st'
        | (Raise e, st') => (Raise e, st')
        end.

#[global] Instance M_mret : MRet M := @M_ret.
#[global] Instance M_mbind : MBind M := @M_bind.

Definition raise {A} (e : Exn) : M A := λ st, (Raise e, st).

Definition perform (es : list Effect) : M unit :=
  λ st, (Ok (), {| dag_context := dag_context st;
                   autoregistered := autoregistered st;
                   performed := (performed st ++ es)%list |}).

(** ** Module-level constants of the file *)

Definition DBT_PROJECT_PATH : string := "/usr/local/airflow/dbt/data_pipeline".
Definition DBT_PROFILES_PATH : string :=
  "/usr/local/airflow/dbt/data_pipeline/profiles.yml".

(** The two enumeration members the file refers to. *)
Module ExecutionMode.
Definition LOCAL : EnumMember := Member "ExecutionMode" "LOCAL".
End ExecutionMode.

Module LoadMode.
Definition DBT_LS : EnumMember := Member "LoadMode" "DBT_LS".
End LoadMode.

(** The configuration values of the file, gathered so that the module can
    also be read with other values in their place. *)
Record Settings := {
  s_dag_id : string;
  s_schedule : string;
  s_start_date : datetime;
  s_catchup : bool;
  s_group_id : string;
  s_project_path : string;
  s_profiles_path : string;
  s_profile_name : string;
  s_target_name : string;
  s_execution_mode : string;   (* member name looked up on ExecutionMode *)
  s_load_method : string       (* member name looked up on LoadMode *)
}.

Definition declared : Settings := {|
  s_dag_id := "dbt_snowflake_pipeline";
  s_schedule := "@daily";
  s_start_date := datetime_ymd 2026 1 1;
  s_catchup := false;
  s_group_id := "dbt_tg";
  s_project_path := DBT_PROJECT_PATH;
  s_profiles_path := DBT_PROFILES_PATH;
  s_profile_name := "data_pipeline";
  s_target_name := "dev";
  s_execution_mode := "LOCAL";
  s_load_method := "DBT_LS"
|}.

(** The definition file as the runtime's loader names it. *)
Definition definition_file : string := "dags/dbt_dag.py".

(** ** The host runtime's state across loads *)

Record Runtime := {
  catalog : gmap string DAG;        (* registered definitions, by dag_id *)
  import_errors : gmap string Exn;  (* load failures, by definition file *)
  effects : list Effect             (* everything observed so far *)
}.

Definition empty_runtime : Runtime :=
  {| catalog := ∅; import_errors := ∅; effects := [] |}.

Definition register (c : gmap string DAG) (d : DAG) : gmap string DAG :=
  <[dag_id d := d]> c.

Section Load.
Context (env : Env).

(** *** Library operations the file calls *)

(** Modelled from the spec: [Class.NAME] on an enumeration class raises
    for a name the class does not declare ("unknown enum values fail at
    load/parse time"). *)
Definition getattr (cls name : string) : M EnumMember :=
  if bool_decide (name ∈ enum_members env cls)
  then mret (Member cls name)
  else raise (AttributeError cls name).

(** Modelled from the spec: the DAG constructor behind [@dag]; a malformed
    schedule string fails here.  The new DAG has no nodes yet. *)
Definition DAG_init (id sched : string) (start : datetime) (cu : bool) : M DAG :=
  if valid_schedule env sched
  then mret {| dag_id := id; schedule := sched; start_date := start;
               catchup := cu; nodes := []; edges := [] |}
  else raise (InvalidSchedule sched).

(** Entering [with DAG(...) as dag_obj]: the DAG becomes the active one. *)
Definition push_dag (d : DAG) : M unit :=
  λ st, (Ok (), {| dag_context := d :: dag_context st;
                   autoregistered := autoregistered st;
                   performed := performed st |}).

(** Leaving the [with] block: the DAG stops being active and is handed to
    the loader. *)
Definition pop_dag : M DAG :=
  λ st, match dag_context st with
        | d :: rest =>
            (Ok d, {| dag_context := rest;
                      autoregistered := autoregistered st ++ [d];
                      performed := performed st |})
        | [] => (Raise NoActiveDag, st)
        end.

(** A node constructed inside a [with] block attaches itself to the
    active DAG. *)
Definition add_to_active_dag (n : Node) : M unit :=
  λ st, match dag_context st with
        | d :: rest =>
            (Ok (), {| dag_context :=
                         {| dag_id := dag_id d; schedule := schedule d;
                            start_date := start_date d; catchup := catchup d;
                            nodes := nodes d ++ [n]; edges := edges d |} :: rest;
                       autoregistered := autoregistered st;
                       performed := performed st |})
        | [] => (Raise NoActiveDag, st)
        end.

(** [with d: f()]: the DAG is made the active one while the body runs and
    the block is left also when the body raises, the exception going on to
    the caller.  The value is the DAG as the body left it. *)
Definition with_dag (d : DAG) (f : M PyValue) : M DAG :=
  λ st, match push_dag d st with
        | (Ok _, st0) =>
            match f st0 with
            | (Ok _, st') => pop_dag st'
            | (Raise e, st') => (Raise e, (pop_dag st').2)
            end
        | (Raise e, st0) => (Raise e, st0)
        end.

(** Modelled from the spec: the factory that [@dag(...)] puts in place of
    the decorated function.  Calling it constructs the DAG, runs the
    function body with the DAG active, ignores what the body returns and
    returns the DAG. *)
Definition dag (id sched : string) (start : datetime) (cu : bool)
    (f : M PyValue) : M PyValue :=
  d ← DAG_init id sched start cu;
  dag_obj ← with_dag d f;
  mret (PyDag dag_obj).

Definition ProjectConfig_init (path : string) : M ProjectConfig :=
  mret {| dbt_project_path := path |}.

(** Modelled from the spec: a missing connection-profile file fails at
    load time. *)
Definition ProfileConfig_init (file name target : string) : M ProfileConfig :=
  if path_exists env file
  then mret {| profiles_yml_filepath := file; profile_name := name;
               target_name := target |}
  else raise (PathNotFound file).

Definition ExecutionConfig_init (mode : EnumMember) : M ExecutionConfig :=
  mret {| execution_mode := mode |}.

Definition RenderConfig_init (method : EnumMember) : M RenderConfig :=
  mret {| load_method := method |}.

(** Modelled from the spec: constructing the task group attaches it to the
    active DAG, fails on a missing project directory, and discovers the
    task graph with the configured load method, which is where the plugin
    performs whatever that method requires. *)
Definition DbtTaskGroup_init (gid : string) (pc : ProjectConfig)
    (pf : ProfileConfig) (ec : ExecutionConfig) (rc : RenderConfig)
    : M DbtTaskGroup :=
  let g := {| group_id := gid; project_config := pc; profile_config := pf;
              execution_config := ec; render_config := rc |} in
  add_to_active_dag (TaskGroupNode g);;
  (if path_exists env (dbt_project_path pc)
   then mret ()
   else raise (PathNotFound (dbt_project_path pc)));;
  perform (render_effects env (load_method rc) (dbt_project_path pc));;
  mret g.

(** *** The definition file *)

(** The body of [def dbt_pipeline()]: one assignment, whose right-hand
    side evaluates its keyword arguments in order, and no [return]. *)
Definition dbt_pipeline_body : M PyValue :=
  pc ← ProjectConfig_init DBT_PROJECT_PATH;
  pf ← ProfileConfig_init DBT_PROFILES_PATH "data_pipeline" "dev";
  em ← getattr "ExecutionMode" "LOCAL";
  ec ← ExecutionConfig_init em;
  lm ← getattr "LoadMode" "DBT_LS";
  rc ← RenderConfig_init lm;
  dbt_tg ← DbtTaskGroup_init "dbt_tg" pc pf ec rc;
  mret PyNone.

(** [dbt_pipeline] after decoration. *)
Definition dbt_pipeline : M PyValue :=
  dag "dbt_snowflake_pipeline" "@daily" (datetime_ymd 2026 1 1) false
      dbt_pipeline_body.

(** The module's top level: the imports and the two constants bind names,
    the decorated [def] binds [dbt_pipeline], and the last line calls it
    and drops the result. *)
Definition module_main : M unit :=
  _ ← dbt_pipeline; mret ().

(** The same module with its configuration values replaced by [s]. *)
Definition dbt_pipeline_body_with (s : Settings) : M PyValue :=
  pc ← ProjectConfig_init (s_project_path s);
  pf ← ProfileConfig_init (s_profiles_path s) (s_profile_name s) (s_target_name s);
  em ← getattr "ExecutionMode" (s_execution_mode s);
  ec ← ExecutionConfig_init em;
  lm ← getattr "LoadMode" (s_load_method s);
  rc ← RenderConfig_init lm;
  dbt_tg ← DbtTaskGroup_init (s_group_id s) pc pf ec rc;
  mret PyNone.

Definition dbt_pipeline_with (s : Settings) : M PyValue :=
  dag (s_dag_id s) (s_schedule s) (s_start_date s) (s_catchup s)
      (dbt_pipeline_body_with s).

Definition module_main_with (s : Settings) : M unit :=
  _ ← dbt_pipeline_with s; mret ().

(** *** The runtime's loader *)

(** Modelled from the spec: what the loader does with the outcome of an
    import.  When the import completed, the DAGs handed over are
    registered in the catalog under their ids; when it raised, the
    exception is recorded against the file and nothing is registered.
    Effects performed during the import have happened either way. *)
Definition collect (rt : Runtime) (r : Outcome unit * Interp) : Runtime :=
  match r with
  | (Ok _, st) =>
      {| catalog := foldl register (catalog rt) (autoregistered st);
         import_errors := delete definition_file (import_errors rt);
         effects := (effects rt ++ performed st
                       ++ map (λ d, RegisterDag (dag_id d)) (autoregistered st))%list |}
  | (Raise e, st) =>
      {| catalog := catalog rt;
         import_errors := <[definition_file := e]> (import_errors rt);
         effects := (effects rt ++ performed st)%list |}
  end.

(** One load of the definition file: the module is imported in a fresh
    interpreter state. *)
Definition load (rt : Runtime) : Runtime :=
  collect rt (module_main fresh_interp).

Definition load_with (s : Settings) (rt : Runtime) : Runtime :=
  collect rt (module_main_with s fresh_interp).

End Load.

(** ** Acceptance of a configuration by an environment *)

(** Every check the libraries make on the values of [s] passes in [env]. *)
Definition accepts (env : Env) (s : Settings) : bool :=
  valid_schedule env (s_schedule s)
  && path_exists env (s_profiles_path s)
  && bool_decide (s_execution_mode s ∈ enum_members env "ExecutionMode")
  && bool_decide (s_load_method s ∈ enum_members env "LoadMode")
  && path_exists env (s_project_path s).

(** One of the values of [s] is invalid in [env]: a schedule string the
    runtime rejects, a path that is missing, or an enumeration member the
    class does not declare. *)
Definition invalid (env : Env) (s : Settings) : Prop :=
  valid_schedule env (s_schedule s) = false
  ∨ path_exists env (s_project_path s) = false
  ∨ path_exists env (s_profiles_path s) = false
  ∨ s_execution_mode s ∉ enum_members env "ExecutionMode"
  ∨ s_load_method s ∉ enum_members env "LoadMode".

(** The exceptions that name one of the values of [s]. *)
Definition blames (s : Settings) (e : Exn) : Prop :=
  e = InvalidSchedule (s_schedule s)
  ∨ e = PathNotFound (s_project_path s)
  ∨ e = PathNotFound (s_profiles_path s)
  ∨ e = AttributeError "ExecutionMode" (s_execution_mode s)
  ∨ e = AttributeError "LoadMode" (s_load_method s).

(** ** Concrete environments *)

(** The paths and enumeration members of a deployment that matches the
    file. *)
Definition declared_paths : list string := [DBT_PROJECT_PATH; DBT_PROFILES_PATH].

Definition declared_members (cls : string) : list string :=
  if bool_decide (cls = "ExecutionMode") then ["LOCAL"]
  else if bool_decide (cls = "LoadMode") then ["DBT_LS"; "DBT_MANIFEST"]
  else [].

(** A deployment in which the declared values are the valid ones and graph
    discovery performs nothing observable. *)
Definition quiet_env : Env := {|
  valid_schedule := λ s, bool_decide (s = "@daily");
  path_exists := λ p, bool_decide (p ∈ declared_paths);
  enum_members := declared_members;
  render_effects := λ _ _, []
|}.

(** A deployment from which the project directory is missing. *)
Definition no_project_env : Env := {|
  valid_schedule := λ s, bool_decide (s = "@daily");
  path_exists := λ p, bool_decide (p = DBT_PROFILES_PATH);
  enum_members := declared_members;
  render_effects := λ _ _, []
|}.

(** The value an accepted import hands to the loader, as [import_accepted]
    below computes it; it only abbreviates the statements of the helper
    lemmas. *)
Definition imported_dag : DAG :=
  {| dag_id := "dbt_snowflake_pipeline";
     schedule := "@daily";
     start_date := datetime_ymd 2026 1 1;
     catchup := false;
     nodes :=
       [ TaskGroupNode
           {| group_id := "dbt_tg";
              project_config := {| dbt_project_path := DBT_PROJECT_PATH |};
              profile_config :=
                {| profiles_yml_filepath := DBT_PROFILES_PATH;
                   profile_name := "data_pipeline";
                   target_name := "dev" |};
              execution_config := {| execution_mode := ExecutionMode.LOCAL |};
              render_config := {| load_method := LoadMode.DBT_LS |} |} ];
     edges := [] |}.

(** ** The module at arbitrary configuration values *)

(** The configuration values read back from a workflow: defined for a
    workflow whose only node is a task group, with members of the two
    enumeration classes the file uses. *)
Definition settings_of_dag (d : DAG) : option Settings :=
  match nodes d with
  | [TaskGroupNode g] =>
      if bool_decide (enum_class (execution_mode (execution_config g)) = "ExecutionMode")
         && bool_decide (enum_class (load_method (render_config g)) = "LoadMode")
      then Some {| s_dag_id := dag_id d;
                   s_schedule := schedule d;
                   s_start_date := start_date d;
                   s_catchup := catchup d;
                   s_group_id := group_id g;
                   s_project_path := dbt_project_path (project_config g);
                   s_profiles_path := profiles_yml_filepath (profile_config g);
                   s_profile_name := profile_name (profile_config g);
                   s_target_name := target_name (profile_config g);
                   s_execution_mode := member_name (execution_mode (execution_config g));
                   s_load_method := member_name (load_method (render_config g)) |}
      else None
  | _ => None
  end.

(** What the plugin does to discover the graph for the values of [s]. *)
Definition discovery (env : Env) (s : Settings) : list Effect :=
  render_effects env (Member "LoadMode" (s_load_method s)) (s_project_path s).

(** A runtime that already holds a definition from another file. *)
Definition other_dag : DAG :=
  {| dag_id := "other_pipeline"; schedule := "@hourly";
     start_date := datetime_ymd 2025 6 1; catchup := true;
     nodes := [TaskNode "extract"]; edges := [] |}.

Definition busy_runtime : Runtime :=
  {| catalog := {["other_pipeline" := other_dag]};
     import_errors := ∅;
     effects := [RegisterDag "other_pipeline"] |}.

(** ** Running the import *)

Ltac unfold_import :=
  cbv [module_main module_main_with dbt_pipeline dbt_pipeline_with dag with_dag
       dbt_pipeline_body dbt_pipeline_body_with DAG_init push_dag pop_dag
       add_to_active_dag ProjectConfig_init ProfileConfig_init
       ExecutionConfig_init RenderConfig_init DbtTaskGroup_init getattr
       perform raise mbind mret M_mbind M_bind M_mret M_ret fresh_interp].

(** The file is the instance of the generalised module at its own values. *)
Lemma module_main_declared env :
  module_main env = module_main_with env declared.
Proof. reflexivity. Qed.

Lemma load_declared env rt : load env rt = load_with env declared rt.
Proof. reflexivity. Qed.

Lemma import_accepted env :
  accepts env declared = true →
  module_main env fresh_interp =
    (Ok (),
     {| dag_context := [];
        autoregistered := [imported_dag];
        performed := render_effects env LoadMode.DBT_LS DBT_PROJECT_PATH |}).
Proof.
  unfold accepts. rewrite !andb_true_iff. simpl.
  intros [[[[Hs Hpf] Hem] Hlm] Hpc].
  unfold_import. rewrite Hs, Hpf, Hem, Hlm. simpl. rewrite Hpc. reflexivity.
Qed.

Lemma invalid_not_accepted env s : invalid env s → accepts env s = false.
Proof.
  unfold invalid, accepts.
  intros [H | [H | [H | [H | H]]]];
    rewrite ?H, ?(bool_decide_eq_false_2 _ H), ?andb_false_r; reflexivity.
Qed.

Lemma import_rejected env s :
  accepts env s = false →
  ∃ e st, module_main_with env s fresh_interp = (Raise e, st)
          ∧ blames s e ∧ performed st = [].
Proof.
  unfold accepts, blames. intros Hacc. unfold_import.
  destruct (valid_schedule env (s_schedule s)) eqn:Hs; [| by eauto 10].
  destruct (path_exists env (s_profiles_path s)) eqn:Hpf; [| by eauto 10].
  destruct (bool_decide (s_execution_mode s ∈ _)) eqn:Hem; [| by eauto 10].
  destruct (bool_decide (s_load_method s ∈ _)) eqn:Hlm; [| by eauto 10].
  simpl in *.
  destruct (path_exists env (s_project_path s)) eqn:Hpc; [done | by eauto 10].
Qed.

Lemma foldl_register_one (c : gmap string DAG) (d : DAG) :
  foldl register c [d] = <[dag_id d := d]> c.
Proof. reflexivity. Qed.

Lemma factory_accepted env :
  accepts env declared = true →
  (dbt_pipeline env fresh_interp).1 = Ok (PyDag imported_dag).
Proof.
  unfold accepts. rewrite !andb_true_iff. simpl.
  intros [[[[Hs Hpf] Hem] Hlm] Hpc].
  unfold_import. rewrite Hs, Hpf, Hem, Hlm. simpl. rewrite Hpc. reflexivity.
Qed.

Lemma load_accepted env rt :
  accepts env declared = true →
  load env rt =
    {| catalog := <["dbt_snowflake_pipeline" := imported_dag]> (catalog rt);
       import_errors := delete definition_file (import_errors rt);
       effects := (effects rt
                     ++ render_effects env LoadMode.DBT_LS DBT_PROJECT_PATH
                     ++ [RegisterDag "dbt_snowflake_pipeline"])%list |}.
Proof.
  intros H. unfold load. rewrite (import_accepted env H). reflexivity.
Qed.

Lemma load_rejected env s rt :
  accepts env s = false →
  ∃ e, (module_main_with env s fresh_interp).1 = Raise e
       ∧ blames s e
       ∧ load_with env s rt =
           {| catalog := catalog rt;
              import_errors := <[definition_file := e]> (import_errors rt);
              effects := effects rt |}.
Proof.
  intros H. destruct (import_rejected env s H) as (e & st & Hrun & Hb & Hp).
  exists e. unfold load_with. rewrite Hrun. simpl. rewrite Hp, app_nil_r.
  auto.
Qed.

(** ** Properties of a load *)

Section Claims.
Implicit Types (env : Env) (rt : Runtime).

(** C2: a load produces exactly one workflow definition; it is registered
    in the runtime's catalog, under the declared name
    "dbt_snowflake_pipeline", which is its identifier, and no load error
    is left recorded for the file. *)
Theorem load_registers_one_workflow env rt :
  accepts env declared = true →
  ∃ d, autoregistered (module_main env fresh_interp).2 = [d]
       ∧ dag_id d = "dbt_snowflake_pipeline"
       ∧ catalog (load env rt) = <["dbt_snowflake_pipeline" := d]> (catalog rt)
       ∧ dom (catalog (load env rt))
           = {["dbt_snowflake_pipeline"]} ∪ dom (catalog rt)
       ∧ import_errors (load env rt) !! definition_file = None.
Proof.
  intros H. exists imported_dag.
  rewrite (import_accepted env H), (load_accepted env rt H). simpl.
  repeat split.
  - apply dom_insert_L.
  - apply lookup_delete_eq.
Qed.

Lemma load_registers_one_workflow_witness :
  accepts quiet_env declared = true
  ∧ ∃ d, autoregistered (module_main quiet_env fresh_interp).2 = [d]
         ∧ dag_id d = "dbt_snowflake_pipeline"
         ∧ catalog (load quiet_env empty_runtime)
             = <["dbt_snowflake_pipeline" := d]> (catalog empty_runtime)
         ∧ dom (catalog (load quiet_env empty_runtime))
             = {["dbt_snowflake_pipeline"]} ∪ dom (catalog empty_runtime)
         ∧ import_errors (load quiet_env empty_runtime) !! definition_file = None.
Proof.
  split; [reflexivity |].
  apply (load_registers_one_workflow quiet_env empty_runtime). reflexivity.
Defined.

(** C3: the workflow a load registers has the schedule "@daily", the start
    date 2026-01-01 and catchup false. *)
Theorem workflow_schedule_start_catchup env rt :
  accepts env declared = true →
  ∃ d, catalog (load env rt) !! "dbt_snowflake_pipeline" = Some d
       ∧ schedule d = "@daily"
       ∧ start_date d = datetime_ymd 2026 1 1
       ∧ (year (start_date d), month (start_date d), day (start_date d))
           = (2026, 1, 1)%Z
       ∧ catchup d = false.
Proof.
  intros H. exists imported_dag. rewrite (load_accepted env rt H). simpl.
  split; [apply lookup_insert_eq | repeat split].
Qed.

Lemma workflow_schedule_start_catchup_witness :
  accepts quiet_env declared = true
  ∧ ∃ d, catalog (load quiet_env empty_runtime) !! "dbt_snowflake_pipeline" = Some d
         ∧ schedule d = "@daily"
         ∧ start_date d = datetime_ymd 2026 1 1
         ∧ (year (start_date d), month (start_date d), day (start_date d))
             = (2026, 1, 1)%Z
         ∧ catchup d = false.
Proof.
  split; [reflexivity |].
  apply (workflow_schedule_start_catchup quiet_env empty_runtime). reflexivity.
Defined.

(** C4: the task group nested in the registered workflow carries the four
    declared settings as written: the project path, the profiles file
    path, the execution mode [ExecutionMode.LOCAL] and the load method
    [LoadMode.DBT_LS]. *)
Theorem task_group_settings_verbatim env rt :
  accepts env declared = true →
  ∃ d g, catalog (load env rt) !! "dbt_snowflake_pipeline" = Some d
         ∧ nodes d = [TaskGroupNode g]
         ∧ dbt_project_path (project_config g)
             = "/usr/local/airflow/dbt/data_pipeline"
         ∧ profiles_yml_filepath (profile_config g)
             = "/usr/local/airflow/dbt/data_pipeline/profiles.yml"
         ∧ execution_mode (execution_config g) = ExecutionMode.LOCAL
         ∧ load_method (render_config g) = LoadMode.DBT_LS.
Proof.
  intros H. rewrite (load_accepted env rt H). simpl.
  eexists imported_dag, _.
  split; [apply lookup_insert_eq |]. split; [reflexivity |]. repeat split.
Qed.

Lemma task_group_settings_verbatim_witness :
  accepts quiet_env declared = true
  ∧ ∃ d g, catalog (load quiet_env empty_runtime) !! "dbt_snowflake_pipeline" = Some d
           ∧ nodes d = [TaskGroupNode g]
           ∧ dbt_project_path (project_config g)
               = "/usr/local/airflow/dbt/data_pipeline"
           ∧ profiles_yml_filepath (profile_config g)
               = "/usr/local/airflow/dbt/data_pipeline/profiles.yml"
           ∧ execution_mode (execution_config g) = ExecutionMode.LOCAL
           ∧ load_method (render_config g) = LoadMode.DBT_LS.
Proof.
  split; [reflexivity |].
  apply (task_group_settings_verbatim quiet_env empty_runtime). reflexivity.
Defined.

(** C6: when one of the configuration values is invalid (a schedule string
    the runtime rejects, a missing path, an undeclared enumeration
    member), the import of the module raises, the exception names one of
    the configuration values, the loader records it against the definition
    file, and nothing is registered. *)
Theorem invalid_configuration_fails_load env (s : Settings) rt :
  invalid env s →
  ∃ e, (module_main_with env s fresh_interp).1 = Raise e
       ∧ blames s e
       ∧ import_errors (load_with env s rt) !! definition_file = Some e
       ∧ catalog (load_with env s rt) = catalog rt
       ∧ effects (load_with env s rt) = effects rt.
Proof.
  intros H%invalid_not_accepted.
  destruct (load_rejected env s rt H) as (e & Hrun & Hb & Hload).
  exists e. rewrite Hload. simpl.
  repeat split; [done | done | apply lookup_insert_eq].
Qed.

Lemma invalid_configuration_fails_load_witness :
  invalid no_project_env declared
  ∧ ∃ e, (module_main_with no_project_env declared fresh_interp).1 = Raise e
         ∧ blames declared e
         ∧ import_errors (load_with no_project_env declared empty_runtime)
             !! definition_file = Some e
         ∧ catalog (load_with no_project_env declared empty_runtime)
             = catalog empty_runtime
         ∧ effects (load_with no_project_env declared empty_runtime)
             = effects empty_runtime.
Proof.
  assert (Hinv : invalid no_project_env declared)
    by (right; left; reflexivity).
  split; [exact Hinv |].
  exact (invalid_configuration_fails_load no_project_env declared empty_runtime Hinv).
Defined.

(** C8: a load constructs the workflow exactly once, the workflow the
    factory returned is the one found in the catalog, no DAG is left open
    for further nodes once the import is over, and whatever number of
    further loads follows, the registered workflow stays as constructed. *)
Theorem workflow_constructed_once_then_fixed env rt :
  accepts env declared = true →
  ∃ d, autoregistered (module_main env fresh_interp).2 = [d]
       ∧ (dbt_pipeline env fresh_interp).1 = Ok (PyDag d)
       ∧ dag_context (module_main env fresh_interp).2 = []
       ∧ ∀ n : nat,
           catalog (Nat.iter n (load env) (load env rt))
             !! "dbt_snowflake_pipeline" = Some d
           ∧ catalog (Nat.iter n (load env) (load env rt))
               = catalog (load env rt).
Proof.
  intros H. exists imported_dag.
  rewrite (import_accepted env H), (factory_accepted env H). simpl.
  do 3 (split; [reflexivity |]).
  assert (Hfix : ∀ n : nat,
             catalog (Nat.iter n (load env) (load env rt)) = catalog (load env rt)).
  { induction n as [| n IH]; [reflexivity |].
    simpl. rewrite (load_accepted env _ H). simpl. rewrite IH.
    rewrite (load_accepted env rt H). simpl. apply insert_insert_eq. }
  intros n. split; [| apply Hfix].
  rewrite Hfix, (load_accepted env rt H). simpl. apply lookup_insert_eq.
Qed.

Lemma workflow_constructed_once_then_fixed_witness :
  accepts quiet_env declared = true
  ∧ ∃ d, autoregistered (module_main quiet_env fresh_interp).2 = [d]
         ∧ (dbt_pipeline quiet_env fresh_interp).1 = Ok (PyDag d)
         ∧ dag_context (module_main quiet_env fresh_interp).2 = []
         ∧ ∀ n : nat,
             catalog (Nat.iter n (load quiet_env) (load quiet_env empty_runtime))
               !! "dbt_snowflake_pipeline" = Some d
             ∧ catalog (Nat.iter n (load quiet_env) (load quiet_env empty_runtime))
                 = catalog (load quiet_env empty_runtime).
Proof.
  split; [reflexivity |].
  apply (workflow_constructed_once_then_fixed quiet_env empty_runtime).
  reflexivity.
Defined.

(** C9: the registered workflow holds exactly one node, the task group
    with identifier "dbt_tg", and no dependency; and the decorated
    function, run with a DAG active, returns [None]. *)
Theorem body_declares_single_task_group env rt :
  accepts env declared = true →
  (∃ d g, catalog (load env rt) !! "dbt_snowflake_pipeline" = Some d
          ∧ nodes d = [TaskGroupNode g]
          ∧ group_id g = "dbt_tg"
          ∧ edges d = [])
  ∧ ∀ (st : Interp) (d0 : DAG) (rest : list DAG),
      dag_context st = d0 :: rest →
      (dbt_pipeline_body env st).1 = Ok PyNone.
Proof.
  intros H. split.
  - rewrite (load_accepted env rt H). simpl.
    eexists imported_dag, _.
    split; [apply lookup_insert_eq |]. split; [reflexivity |]. split; reflexivity.
  - revert H. unfold accepts. rewrite !andb_true_iff. simpl.
    intros [[[[Hs Hpf] Hem] Hlm] Hpc] st d0 rest Hctx.
    unfold_import. rewrite Hpf, Hem, Hlm, Hctx. simpl. rewrite Hpc. reflexivity.
Qed.

Lemma body_declares_single_task_group_witness :
  accepts quiet_env declared = true
  ∧ (∃ d g, catalog (load quiet_env empty_runtime) !! "dbt_snowflake_pipeline" = Some d
            ∧ nodes d = [TaskGroupNode g]
            ∧ group_id g = "dbt_tg"
            ∧ edges d = [])
  ∧ ∀ (st : Interp) (d0 : DAG) (rest : list DAG),
      dag_context st = d0 :: rest →
      (dbt_pipeline_body quiet_env st).1 = Ok PyNone.
Proof.
  split; [reflexivity |].
  apply (body_declares_single_task_group quiet_env empty_runtime). reflexivity.
Defined.

(** C10: the profiles file lies inside the project directory: its path is
    the project path followed by "/profiles.yml", both as constants of the
    file and as configured in the registered task group; the profile entry
    selected is "data_pipeline" and the target "dev". *)
Theorem profile_inside_project env rt :
  accepts env declared = true →
  DBT_PROFILES_PATH = DBT_PROJECT_PATH +:+ "/profiles.yml"
  ∧ ∃ d g, catalog (load env rt) !! "dbt_snowflake_pipeline" = Some d
           ∧ nodes d = [TaskGroupNode g]
           ∧ profiles_yml_filepath (profile_config g)
               = dbt_project_path (project_config g) +:+ "/profiles.yml"
           ∧ profile_name (profile_config g) = "data_pipeline"
           ∧ target_name (profile_config g) = "dev".
Proof.
  intros H. split; [reflexivity |].
  rewrite (load_accepted env rt H). simpl.
  eexists imported_dag, _.
  split; [apply lookup_insert_eq |]. split; [reflexivity |]. repeat split.
Qed.

Lemma profile_inside_project_witness :
  accepts quiet_env declared = true
  ∧ DBT_PROFILES_PATH = DBT_PROJECT_PATH +:+ "/profiles.yml"
  ∧ ∃ d g, catalog (load quiet_env empty_runtime) !! "dbt_snowflake_pipeline" = Some d
           ∧ nodes d = [TaskGroupNode g]
           ∧ profiles_yml_filepath (profile_config g)
               = dbt_project_path (project_config g) +:+ "/profiles.yml"
           ∧ profile_name (profile_config g) = "data_pipeline"
           ∧ target_name (profile_config g) = "dev".
Proof.
  split; [reflexivity |].
  apply (profile_inside_project quiet_env empty_runtime). reflexivity.
Defined.

End Claims.

(** ** Further properties of the module, at arbitrary configuration values *)

Section Extras.
Implicit Types (env : Env) (s : Settings) (st : Interp) (rt : Runtime).

Lemma accepts_checks env s :
  accepts env s = true ↔
  valid_schedule env (s_schedule s) = true
  ∧ path_exists env (s_profiles_path s) = true
  ∧ bool_decide (s_execution_mode s ∈ enum_members env "ExecutionMode") = true
  ∧ bool_decide (s_load_method s ∈ enum_members env "LoadMode") = true
  ∧ path_exists env (s_project_path s) = true.
Proof. unfold accepts. rewrite !andb_true_iff. tauto. Qed.

(** The decorated function at any configuration the environment accepts,
    started in any interpreter state. *)
Lemma factory_with_accepted env s st :
  accepts env s = true →
  ∃ d, settings_of_dag d = Some s
       ∧ dbt_pipeline_with env s st =
           (Ok (PyDag d),
            {| dag_context := dag_context st;
               autoregistered := (autoregistered st ++ [d])%list;
               performed := (performed st ++ discovery env s)%list |}).
Proof.
  intros (Hs & Hpf & Hem & Hlm & Hpc)%accepts_checks.
  unfold_import. rewrite Hs, Hpf, Hem, Hlm. simpl. rewrite Hpc. simpl.
  eexists. split; [| reflexivity].
  destruct s; reflexivity.
Qed.

Lemma module_main_with_run env s st :
  module_main_with env s st =
    match dbt_pipeline_with env s st with
    | (Ok _, st') => (Ok (), st')
    | (Raise e, st') => (Raise e, st')
    end.
Proof. reflexivity. Qed.

Lemma load_with_accepted env s rt :
  accepts env s = true →
  ∃ d, settings_of_dag d = Some s
       ∧ load_with env s rt =
           {| catalog := <[dag_id d := d]> (catalog rt);
              import_errors := delete definition_file (import_errors rt);
              effects := (effects rt ++ discovery env s
                            ++ [RegisterDag (dag_id d)])%list |}.
Proof.
  intros H. destruct (factory_with_accepted env s fresh_interp H) as (d & Hd & Hrun).
  exists d. split; [done |].
  unfold load_with. rewrite module_main_with_run, Hrun. reflexivity.
Qed.

Lemma settings_of_dag_id d s : settings_of_dag d = Some s → dag_id d = s_dag_id s.
Proof.
  unfold settings_of_dag.
  destruct (nodes d) as [| [g |] [|]]; try discriminate.
  destruct (_ && _); [| discriminate]. intros [= <-]. reflexivity.
Qed.

(** X2: a load leaves every other entry of the catalog as it was, whether
    it completes or fails and whatever the configuration values. *)
Theorem load_keeps_other_definitions env s rt (id : string) :
  id ≠ s_dag_id s →
  catalog (load_with env s rt) !! id = catalog rt !! id.
Proof.
  intros Hne. destruct (accepts env s) eqn:Hacc.
  - destruct (load_with_accepted env s rt Hacc) as (d & Hd & ->). simpl.
    apply lookup_insert_ne. rewrite (settings_of_dag_id d s Hd). done.
  - destruct (load_rejected env s rt Hacc) as (e & _ & _ & ->). reflexivity.
Qed.

Lemma load_keeps_other_definitions_witness :
  "other_pipeline" ≠ s_dag_id declared
  ∧ catalog (load_with quiet_env declared busy_runtime) !! "other_pipeline"
      = catalog busy_runtime !! "other_pipeline".
Proof.
  assert (Hne : "other_pipeline" ≠ s_dag_id declared) by (simpl; discriminate).
  split; [exact Hne |].
  exact (load_keeps_other_definitions quiet_env declared busy_runtime
           "other_pipeline" Hne).
Defined.

(** X3: every configuration value reaches the registered workflow
    unchanged and in its own place: for any accepted configuration, the
    values read back from the workflow registered under its id are the
    configuration itself. *)
Theorem configuration_round_trip env s rt :
  accepts env s = true →
  ∃ d, catalog (load_with env s rt) !! s_dag_id s = Some d
       ∧ settings_of_dag d = Some s.
Proof.
  intros H. destruct (load_with_accepted env s rt H) as (d & Hd & ->).
  exists d. simpl. split; [| done].
  rewrite <- (settings_of_dag_id d s Hd). apply lookup_insert_eq.
Qed.

Lemma configuration_round_trip_witness :
  accepts quiet_env declared = true
  ∧ ∃ d, catalog (load_with quiet_env declared busy_runtime) !! s_dag_id declared
           = Some d
         ∧ settings_of_dag d = Some declared.
Proof.
  split; [reflexivity |].
  apply (configuration_round_trip quiet_env declared busy_runtime). reflexivity.
Defined.

End Extras.
